(** * Hotel access of the drivent API: services, repositories, controllers

    A shallow embedding of
      - src/repositories/hotel-repository/index.ts
      - src/services/hotels-service/index.ts
      - src/controllers/hotels-controller.ts
    together with the parts of the persistence layer and of the error
    module they call.  Asynchronous functions are computations in a state
    and exception monad over the database; [await] is the monad's bind. *)

From stdpp Require Import gmap strings list fin_maps.

Open Scope Z_scope.

(** ** The persistence store

    A table is a finite map from the primary key [id] to the remaining
    columns of the row; a model object, as the client hands it to the
    code, is the row with its key. *)

(** The status of a ticket: reserved, or paid. *)
Inductive TicketStatus := RESERVED | PAID.

Global Instance TicketStatus_eq_dec : EqDecision TicketStatus.
Proof. solve_decision. Defined.

Module Enrollment.
Module Row.
Record t := { userId : Z; Address : string }.
End Row.
Record t := { id : Z; userId : Z; Address : string }.
Definition of_row (kr : Z * Row.t) : t :=
  {| id := kr.1; userId := Row.userId kr.2; Address := Row.Address kr.2 |}.
End Enrollment.

Module TicketType.
Module Row.
Record t := { isRemote : bool; includesHotel : bool }.
End Row.
Record t := { id : Z; isRemote : bool; includesHotel : bool }.
Definition of_row (kr : Z * Row.t) : t :=
  {| id := kr.1; isRemote := Row.isRemote kr.2;
     includesHotel := Row.includesHotel kr.2 |}.
End TicketType.

Module Ticket.
Module Row.
Record t := { ticketTypeId : Z; enrollmentId : Z; status : TicketStatus }.
End Row.
(** A ticket as returned with [include: { TicketType: true }]. *)
Record t := {
  id : Z;
  ticketTypeId : Z;
  enrollmentId : Z;
  status : TicketStatus;
  TicketType : TicketType.t
}.
End Ticket.

Module Room.
Module Row.
Record t := {
  name : string;
  capacity : Z;
  hotelId : Z;
  createdAt : Z;
  updatedAt : Z
}.
End Row.
Record t := {
  id : Z;
  name : string;
  capacity : Z;
  hotelId : Z;
  createdAt : Z;
  updatedAt : Z
}.
Definition of_row (kr : Z * Row.t) : t :=
  {| id := kr.1; name := Row.name kr.2; capacity := Row.capacity kr.2;
     hotelId := Row.hotelId kr.2; createdAt := Row.createdAt kr.2;
     updatedAt := Row.updatedAt kr.2 |}.
End Room.

Module Hotel.
Module Row.
Record t := {
  name : string;
  image : string;
  createdAt : Z;
  updatedAt : Z
}.
End Row.
Record t := {
  id : Z;
  name : string;
  image : string;
  createdAt : Z;
  updatedAt : Z
}.
Definition of_row (kr : Z * Row.t) : t :=
  {| id := kr.1; name := Row.name kr.2; image := Row.image kr.2;
     createdAt := Row.createdAt kr.2; updatedAt := Row.updatedAt kr.2 |}.
(** The columns of a hotel object. *)
Definition row (h : t) : Row.t :=
  {| Row.name := name h; Row.image := image h;
     Row.createdAt := createdAt h; Row.updatedAt := updatedAt h |}.
End Hotel.

(** A hotel as returned with [include: { Rooms: true }]. *)
Module HotelWithRooms.
Record t := {
  id : Z;
  name : string;
  image : string;
  createdAt : Z;
  updatedAt : Z;
  Rooms : list Room.t
}.
Definition make (h : Hotel.t) (rooms : list Room.t) : t :=
  {| id := Hotel.id h; name := Hotel.name h; image := Hotel.image h;
     createdAt := Hotel.createdAt h; updatedAt := Hotel.updatedAt h;
     Rooms := rooms |}.
End HotelWithRooms.

Record Store := {
  enrollment : gmap Z Enrollment.Row.t;
  ticket : gmap Z Ticket.Row.t;
  ticketType : gmap Z TicketType.Row.t;
  hotel : gmap Z Hotel.Row.t;
  room : gmap Z Room.Row.t
}.

(** ** JavaScript values the code depends on *)

(** The result of [Number(s)], as far as the client's check of an
    integer argument can tell values apart: [NaN], an integer, or any
    other number (a fraction or an infinity). *)
Inductive JsNumber :=
| JsNaN
| JsInt (z : Z)
| JsOther.

(** ToBoolean of an array reference.  Arrays are objects and every
    object is truthy, the empty array included. *)
Definition array_truthy {A} (a : list A) : bool := true.

(** Thrown values.  The controllers read only [error.name]. *)
Record JsError := { name : string }.

Global Instance JsError_eq_dec : EqDecision JsError.
Proof. solve_decision. Defined.

(** The error with which the persistence client rejects a call whose
    arguments do not fit the schema.  It is neither of the two domain
    errors. *)
Definition prismaClientValidationError : JsError :=
  {| name := "PrismaClientValidationError" |}.

(** ** Asynchronous computations over the database *)

(** The queries the client can be asked to run on this path. *)
Inductive Query :=
| EnrollmentFindFirst (userId : Z)
| TicketFindFirst (enrollmentId : Z)
| HotelFindMany
| HotelFindManyWhere (id : JsNumber).

(** The world a request runs in: the database and the journal of the
    queries issued so far. *)
Record World := { db : Store; journal : list Query }.

Inductive Outcome (A : Type) :=
| Resolved (a : A)
| Rejected (e : JsError).
Arguments Resolved {A} a.
Arguments Rejected {A} e.

Definition Async (A : Type) : Type := World → Outcome A * World.

Global Instance Async_ret : MRet Async := λ A a w, (Resolved a, w).

Global Instance Async_bind : MBind Async := λ A B f m w,
  match m w with
  | (Resolved a, w') => f a w'
  | (Rejected e, w') => (Rejected e, w')
  end.

Definition throw {A} (e : JsError) : Async A := λ w, (Rejected e, w).

(** The world after the queries [qs] were answered. *)
Definition logged (w : World) (qs : list Query) : World :=
  {| db := db w; journal := journal w ++ qs |}.

(** A read query: journalled, answered from the database, which it
    leaves as it is. *)
Definition prisma_read {A} (q : Query) (answer : Store → A) : Async A :=
  λ w, (Resolved (answer (db w)), logged w [q]).

(** A call the client refuses: journalled, and rejected before anything
    is read. *)
Definition prisma_refuse {A} (q : Query) (e : JsError) : Async A :=
  λ w, (Rejected e, logged w [q]).

Definition outcome {A} (m : Async A) (w : World) : Outcome A := (m w).1.
Definition world_after {A} (m : Async A) (w : World) : World := (m w).2.

(** The queries a run added to the journal. *)
Definition issued {A} (m : Async A) (w : World) : list Query :=
  drop (length (journal w)) (journal (world_after m w)).

(** ** The client's queries *)

Module prisma.
(** [findMany()] on a table: every row, as model objects. *)
Definition rows {R T} (of_row : Z * R → T) (tbl : gmap Z R) : list T :=
  of_row <$> map_to_list tbl.

Module hotel.
Definition all (s : Store) : list Hotel.t :=
  rows Hotel.of_row (hotel s).

(** The [Rooms] relation of a hotel: the rooms whose [hotelId] is
    the hotel's [id]. *)
Definition Rooms (s : Store) (h : Hotel.t) : list Room.t :=
  filter (λ r, Room.hotelId r = Hotel.id h) (rows Room.of_row (room s)).

Definition findMany : Async (list Hotel.t) :=
  prisma_read HotelFindMany all.

(** [findMany({ where: { id }, include: { Rooms: true } })].  The
    column [id] is an integer: the client checks the argument first and
    rejects [NaN] and every number that is no integer; for an integer
    it answers the hotels with that key, each with its rooms. *)
Definition findMany_where_include_Rooms (id : JsNumber)
  : Async (list HotelWithRooms.t) :=
  match id with
  | JsInt k =>
    prisma_read (HotelFindManyWhere id) (λ s,
      (λ h, HotelWithRooms.make h (Rooms s h)) <$>
      filter (λ h, Hotel.id h = k) (all s))
  | JsNaN | JsOther =>
    prisma_refuse (HotelFindManyWhere id) prismaClientValidationError
  end.
End hotel.

End prisma.

(** ** src/repositories/hotel-repository/index.ts *)

Module hotelRepository.
Definition findHotels : Async (list Hotel.t) :=
  prisma.hotel.findMany.

Definition findHotelRooms (id : JsNumber) : Async (list HotelWithRooms.t) :=
  prisma.hotel.findMany_where_include_Rooms id.
End hotelRepository.

(** ** Collaborators of the service that are not among the sources *)

Module enrollmentRepository.
(** Modelled from the spec: the answer of the enrollment lookup, which
    is not among the sources: the first enrollment, in table order, of
    the given user, or nothing. *)
Definition first_by_userId (userId : Z) (s : Store) : option Enrollment.t :=
  head (filter (λ e, Enrollment.userId e = userId)
               (prisma.rows Enrollment.of_row (enrollment s))).

(** Modelled from the spec: the enrollment repository
    (@/repositories/enrollment-repository) is not among the sources.
    Enrollment Lookup: given a user identifier, returns the user's
    enrollment record (with address) or nothing. *)
Definition findWithAddressByUserId (userId : Z)
  : Async (option Enrollment.t) :=
  prisma_read (EnrollmentFindFirst userId) (first_by_userId userId).
End enrollmentRepository.

Module ticketRepository.
(** Modelled from the spec: the ticket lookup, which is not among the
    sources, returns the ticket and its ticket type.  The relation is
    required: a row whose [ticketTypeId] names no ticket type is not a
    ticket the store can hold, and has no answer here. *)
Definition with_type (s : Store) (kr : Z * Ticket.Row.t) : option Ticket.t :=
  ty ← ticketType s !! Ticket.Row.ticketTypeId kr.2;
  Some {| Ticket.id := kr.1;
          Ticket.ticketTypeId := Ticket.Row.ticketTypeId kr.2;
          Ticket.enrollmentId := Ticket.Row.enrollmentId kr.2;
          Ticket.status := Ticket.Row.status kr.2;
          Ticket.TicketType :=
            TicketType.of_row (Ticket.Row.ticketTypeId kr.2, ty) |}.

(** Modelled from the spec: the answer of the ticket lookup, which is
    not among the sources: the first ticket, in table order, of the
    given enrollment, with its ticket type, or nothing. *)
Definition first_by_enrollmentId (enrollmentId : Z) (s : Store)
  : option Ticket.t :=
  head (filter (λ kr, Ticket.Row.enrollmentId kr.2 = enrollmentId)
               (map_to_list (ticket s))) ≫= with_type s.

(** Modelled from the spec: the ticket repository
    (@/repositories/ticket-repository) is not among the sources.
    Ticket Lookup: given an enrollment identifier, returns the
    associated ticket and its ticket-type (paid/remote/includes-hotel
    flags) or nothing. *)
Definition findTicketByEnrollmentId (enrollmentId : Z)
  : Async (option Ticket.t) :=
  prisma_read (TicketFindFirst enrollmentId)
              (first_by_enrollmentId enrollmentId).
End ticketRepository.

(** Modelled from the spec: the error module (@/errors) is not among the
    sources.  Two domain error kinds, NotFound and PaymentRequired; the
    controllers recognise them by the names below. *)
Definition notFoundError : JsError := {| name := "NotFoundError" |}.

(** Modelled from the spec: see [notFoundError]. *)
Definition paymentRequiredError : JsError :=
  {| name := "PaymentRequiredError" |}.

(** ** src/services/hotels-service/index.ts *)

Module hotelService.
Definition getHotels (userId : Z) : Async (list Hotel.t) :=
  enrollment ← enrollmentRepository.findWithAddressByUserId userId;
  match enrollment with
  | None => throw notFoundError
  | Some enrollment =>
    ticket ← ticketRepository.findTicketByEnrollmentId
               (Enrollment.id enrollment);
    match ticket with
    | None => throw notFoundError
    | Some ticket =>
      if negb (bool_decide (Ticket.status ticket = PAID))
         || TicketType.isRemote (Ticket.TicketType ticket)
         || negb (TicketType.includesHotel (Ticket.TicketType ticket))
      then throw paymentRequiredError
      else
        hotels ← hotelRepository.findHotels;
        if negb (array_truthy hotels) then throw notFoundError
        else mret hotels
    end
  end.

Section coercion.
(** The language's string-to-number coercion. *)
Variable Number : string → JsNumber.

Definition getHotelRooms (hotelId : string)
  : Async (list HotelWithRooms.t) :=
  hotelRooms ← hotelRepository.findHotelRooms (Number hotelId);
  if bool_decide (length hotelRooms = 0%nat) then throw notFoundError
  else mret hotelRooms.
End coercion.
End hotelService.

(** The test of the third guard of [getHotels], on its own. *)
Definition disqualified (ticket : Ticket.t) : bool :=
  negb (bool_decide (Ticket.status ticket = PAID))
  || TicketType.isRemote (Ticket.TicketType ticket)
  || negb (TicketType.includesHotel (Ticket.TicketType ticket)).

(** The answer of the query of [findHotelRooms] for an integer id, on
    its own. *)
Definition hotelRooms_of (k : Z) (s : Store) : list HotelWithRooms.t :=
  (λ h, HotelWithRooms.make h (prisma.hotel.Rooms s h)) <$>
  filter (λ h, Hotel.id h = k) (prisma.hotel.all s).

(** ** src/controllers/hotels-controller.ts *)

Module httpStatus.
Definition OK : Z := 200.
Definition BAD_REQUEST : Z := 400.
Definition PAYMENT_REQUIRED : Z := 402.
Definition NOT_FOUND : Z := 404.
End httpStatus.

(** What a handler sends: [res.status(code).send(body)] or
    [res.sendStatus(code)]. *)
Inductive Response (A : Type) :=
| status_send (code : Z) (body : A)
| sendStatus (code : Z).
Arguments status_send {A} code body.
Arguments sendStatus {A} code.

Record Params := { hotelId : string }.
Record AuthenticatedRequest := { userId : Z; params : Params }.

(** [try { body } catch (error) { handler }] *)
Definition try_catch {A} (body : Async A) (handler : JsError → Async A)
  : Async A :=
  λ w, match body w with
       | (Resolved a, w') => (Resolved a, w')
       | (Rejected error, w') => handler error w'
       end.

Module controller.
Definition getHotels_catch (error : JsError)
  : Async (Response (list Hotel.t)) :=
  if bool_decide (name error = "NotFoundError")
  then mret (sendStatus httpStatus.NOT_FOUND)
  else if bool_decide (name error = "PaymentRequiredError")
  then mret (sendStatus httpStatus.PAYMENT_REQUIRED)
  else mret (sendStatus httpStatus.BAD_REQUEST).

Definition getHotels (req : AuthenticatedRequest)
  : Async (Response (list Hotel.t)) :=
  try_catch
    (hotels ← hotelService.getHotels (userId req);
     mret (status_send httpStatus.OK hotels))
    getHotels_catch.

Definition getHotelRooms_catch (error : JsError)
  : Async (Response (list HotelWithRooms.t)) :=
  if bool_decide (name error = "NotFoundError")
  then mret (sendStatus httpStatus.NOT_FOUND)
  else mret (sendStatus httpStatus.BAD_REQUEST).

Section coercion.
Variable Number : string → JsNumber.

Definition getHotelRooms (req : AuthenticatedRequest)
  : Async (Response (list HotelWithRooms.t)) :=
  try_catch
    (hotelRooms ← hotelService.getHotelRooms Number (hotelId (params req));
     mret (status_send httpStatus.OK hotelRooms))
    getHotelRooms_catch.
End coercion.
End controller.

(** ** The boundary as the specification words it

    Errors are told apart by kind, and each kind has its status code. *)

Inductive ErrorKind := NotFound | PaymentRequired | Unexpected.

Definition kind_of (e : JsError) : ErrorKind :=
  if decide (e = notFoundError) then NotFound
  else if decide (e = paymentRequiredError) then PaymentRequired
  else Unexpected.

Definition status_of_kind (k : ErrorKind) : Z :=
  match k with
  | NotFound => 404
  | PaymentRequired => 402
  | Unexpected => 400
  end.

Definition boundary {A} (o : Outcome A) : Response A :=
  match o with
  | Resolved a => status_send 200 a
  | Rejected e => sendStatus (status_of_kind (kind_of e))
  end.

(** ** A sample database *)

Module sample.
Definition hotels : gmap Z Hotel.Row.t :=
  list_to_map
    [(1, {| Hotel.Row.name := "Beach Resort"; Hotel.Row.image := "beach.png";
            Hotel.Row.createdAt := 1000; Hotel.Row.updatedAt := 1000 |});
     (2, {| Hotel.Row.name := "City Inn"; Hotel.Row.image := "city.png";
            Hotel.Row.createdAt := 1001; Hotel.Row.updatedAt := 1002 |})].

Definition rooms : gmap Z Room.Row.t :=
  list_to_map
    [(10, {| Room.Row.name := "101"; Room.Row.capacity := 2;
             Room.Row.hotelId := 1; Room.Row.createdAt := 1003;
             Room.Row.updatedAt := 1003 |});
     (11, {| Room.Row.name := "102"; Room.Row.capacity := 3;
             Room.Row.hotelId := 1; Room.Row.createdAt := 1004;
             Room.Row.updatedAt := 1004 |});
     (12, {| Room.Row.name := "201"; Room.Row.capacity := 1;
             Room.Row.hotelId := 2; Room.Row.createdAt := 1005;
             Room.Row.updatedAt := 1005 |})].

(** Ticket types: 1 is on site with hotel, 2 is remote, 3 is on site
    without hotel. *)
Definition ticketTypes : gmap Z TicketType.Row.t :=
  list_to_map
    [(1, {| TicketType.Row.isRemote := false;
            TicketType.Row.includesHotel := true |});
     (2, {| TicketType.Row.isRemote := true;
            TicketType.Row.includesHotel := false |});
     (3, {| TicketType.Row.isRemote := false;
            TicketType.Row.includesHotel := false |})].

(** User 7 is enrolled (enrollment 70) and holds a paid ticket of type
    1; user 8 is enrolled (80) with a reserved ticket of type 1; user 9
    is enrolled (90) without a ticket; user 5 is not enrolled. *)
Definition enrollments : gmap Z Enrollment.Row.t :=
  list_to_map
    [(70, {| Enrollment.Row.userId := 7; Enrollment.Row.Address := "A" |});
     (80, {| Enrollment.Row.userId := 8; Enrollment.Row.Address := "B" |});
     (90, {| Enrollment.Row.userId := 9; Enrollment.Row.Address := "C" |})].

Definition tickets : gmap Z Ticket.Row.t :=
  list_to_map
    [(700, {| Ticket.Row.ticketTypeId := 1; Ticket.Row.enrollmentId := 70;
              Ticket.Row.status := PAID |});
     (800, {| Ticket.Row.ticketTypeId := 1; Ticket.Row.enrollmentId := 80;
              Ticket.Row.status := RESERVED |})].

Definition store : Store :=
  {| enrollment := enrollments; ticket := tickets;
     ticketType := ticketTypes; hotel := hotels; room := rooms |}.

(** The same event before any hotel was registered. *)
Definition store_without_hotels : Store :=
  {| enrollment := enrollments; ticket := tickets;
     ticketType := ticketTypes; hotel := ∅; room := ∅ |}.

Definition world : World := {| db := store; journal := [] |}.
Definition world_without_hotels : World :=
  {| db := store_without_hotels; journal := [] |}.

(** A coercion for the examples, which use it on short strings of
    decimal digits and on strings without a digit only: it reads a
    string of decimal digits as the integer it spells, and a string
    holding any other character as [NaN].  The theorems hold for every
    coercion. *)
Fixpoint digits (acc : Z) (s : string) : JsNumber :=
  match s with
  | EmptyString => JsInt acc
  | String c rest =>
    let n := Z.of_N (Ascii.N_of_ascii c) in
    if bool_decide (48 ≤ n ≤ 57) then digits (10 * acc + (n - 48)) rest
    else JsNaN
  end.

Definition Number (s : string) : JsNumber := digits 0 s.

Definition enrollment_of_7 : Enrollment.t :=
  {| Enrollment.id := 70; Enrollment.userId := 7; Enrollment.Address := "A" |}.
Definition enrollment_of_8 : Enrollment.t :=
  {| Enrollment.id := 80; Enrollment.userId := 8; Enrollment.Address := "B" |}.
Definition enrollment_of_9 : Enrollment.t :=
  {| Enrollment.id := 90; Enrollment.userId := 9; Enrollment.Address := "C" |}.

Definition on_site_with_hotel : TicketType.t :=
  {| TicketType.id := 1; TicketType.isRemote := false;
     TicketType.includesHotel := true |}.

Definition ticket_of_7 : Ticket.t :=
  {| Ticket.id := 700; Ticket.ticketTypeId := 1; Ticket.enrollmentId := 70;
     Ticket.status := PAID; Ticket.TicketType := on_site_with_hotel |}.
Definition ticket_of_8 : Ticket.t :=
  {| Ticket.id := 800; Ticket.ticketTypeId := 1; Ticket.enrollmentId := 80;
     Ticket.status := RESERVED; Ticket.TicketType := on_site_with_hotel |}.

Definition beach_resort : Hotel.Row.t :=
  {| Hotel.Row.name := "Beach Resort"; Hotel.Row.image := "beach.png";
     Hotel.Row.createdAt := 1000; Hotel.Row.updatedAt := 1000 |}.
End sample.

(** The columns of a room object. *)
Definition room_columns (rm : Room.t) : Room.Row.t :=
  {| Room.Row.name := Room.name rm; Room.Row.capacity := Room.capacity rm;
     Room.Row.hotelId := Room.hotelId rm; Room.Row.createdAt := Room.createdAt rm;
     Room.Row.updatedAt := Room.updatedAt rm |}.

(** A second sample: the sample event with one more hotel, which has no
    room yet. *)
Module vacant.
Definition lodge : Hotel.Row.t :=
  {| Hotel.Row.name := "Mountain Lodge"; Hotel.Row.image := "lodge.png";
     Hotel.Row.createdAt := 2000; Hotel.Row.updatedAt := 2000 |}.

Definition store : Store :=
  {| enrollment := sample.enrollments; ticket := sample.tickets;
     ticketType := sample.ticketTypes;
     hotel := <[3 := lodge]> sample.hotels; room := sample.rooms |}.

Definition world : World := {| db := store; journal := [] |}.
End vacant.

(** ** Running a computation *)

Lemma logged_db w qs : db (logged w qs) = db w.
Proof. reflexivity. Qed.

Lemma logged_logged w qs qs' : logged (logged w qs) qs' = logged w (qs ++ qs').
Proof. unfold logged; simpl. by rewrite <- app_assoc. Qed.

Lemma prisma_read_run {A} q (answer : Store → A) w :
  prisma_read q answer w = (Resolved (answer (db w)), logged w [q]).
Proof. reflexivity. Qed.

Lemma bind_run {A B} (m : Async A) (f : A → Async B) w :
  (m ≫= f) w =
  match m w with
  | (Resolved a, w') => f a w'
  | (Rejected e, w') => (Rejected e, w')
  end.
Proof. reflexivity. Qed.

Lemma issued_logged {A} (m : Async A) w (o : Outcome A) qs :
  m w = (o, logged w qs) → issued m w = qs.
Proof.
  intros Hrun. unfold issued, world_after. rewrite Hrun. simpl.
  by rewrite drop_app_length.
Qed.

Lemma disqualified_spec ticket :
  disqualified ticket = true ↔
  Ticket.status ticket ≠ PAID
  ∨ TicketType.isRemote (Ticket.TicketType ticket) = true
  ∨ TicketType.includesHotel (Ticket.TicketType ticket) = false.
Proof.
  unfold disqualified.
  rewrite !orb_true_iff, !negb_true_iff, bool_decide_eq_false. tauto.
Qed.

(** Every run of [getHotels] takes one of four paths. *)
Lemma getHotels_run userId w :
  hotelService.getHotels userId w =
  match enrollmentRepository.first_by_userId userId (db w) with
  | None => (Rejected notFoundError, logged w [EnrollmentFindFirst userId])
  | Some e =>
    let lookups := [EnrollmentFindFirst userId;
                    TicketFindFirst (Enrollment.id e)] in
    match ticketRepository.first_by_enrollmentId (Enrollment.id e) (db w) with
    | None => (Rejected notFoundError, logged w lookups)
    | Some t =>
      if disqualified t
      then (Rejected paymentRequiredError, logged w lookups)
      else (Resolved (prisma.hotel.all (db w)),
            logged w (lookups ++ [HotelFindMany]))
    end
  end.
Proof.
  unfold hotelService.getHotels,
    enrollmentRepository.findWithAddressByUserId,
    ticketRepository.findTicketByEnrollmentId,
    hotelRepository.findHotels, prisma.hotel.findMany.
  rewrite bind_run, prisma_read_run.
  destruct (enrollmentRepository.first_by_userId userId (db w)) as [e|];
    [|done].
  rewrite bind_run, prisma_read_run, logged_logged, logged_db. simpl.
  destruct (ticketRepository.first_by_enrollmentId _ (db w)) as [t|]; [|done].
  fold (disqualified t). destruct (disqualified t); [done|].
  by rewrite bind_run, prisma_read_run, logged_logged.
Qed.

Lemma getHotelRooms_run Number hotelId w :
  hotelService.getHotelRooms Number hotelId w =
  let w' := logged w [HotelFindManyWhere (Number hotelId)] in
  match Number hotelId with
  | JsInt k =>
    match hotelRooms_of k (db w) with
    | [] => (Rejected notFoundError, w')
    | hotelRooms => (Resolved hotelRooms, w')
    end
  | JsNaN | JsOther => (Rejected prismaClientValidationError, w')
  end.
Proof.
  unfold hotelService.getHotelRooms, hotelRepository.findHotelRooms,
    prisma.hotel.findMany_where_include_Rooms.
  rewrite bind_run. destruct (Number hotelId) as [|k|]; [done| |done].
  rewrite prisma_read_run. fold (hotelRooms_of k (db w)).
  by destruct (hotelRooms_of _ _).
Qed.

Lemma getHotels_outcome userId w e t :
  enrollmentRepository.first_by_userId userId (db w) = Some e →
  ticketRepository.first_by_enrollmentId (Enrollment.id e) (db w) = Some t →
  outcome (hotelService.getHotels userId) w =
  if disqualified t then Rejected paymentRequiredError
  else Resolved (prisma.hotel.all (db w)).
Proof.
  intros He Ht. unfold outcome. rewrite getHotels_run, He. simpl.
  rewrite Ht. by destruct (disqualified t).
Qed.

Lemma eligible_not_disqualified t :
  Ticket.status t = PAID →
  TicketType.isRemote (Ticket.TicketType t) = false →
  TicketType.includesHotel (Ticket.TicketType t) = true →
  disqualified t = false.
Proof.
  intros Hpaid Hremote Hhotel. apply not_true_is_false.
  rewrite disqualified_spec, Hremote, Hhotel. intuition congruence.
Qed.

(** ** Facts about tables *)

Section tables.
Context {R T : Type} (of_row : Z * R → T).

Lemma rows_length (tbl : gmap Z R) :
  length (prisma.rows of_row tbl) = size tbl.
Proof.
  unfold prisma.rows. by rewrite length_fmap, length_map_to_list.
Qed.

Lemma rows_empty_iff (tbl : gmap Z R) : prisma.rows of_row tbl = [] ↔ tbl = ∅.
Proof.
  unfold prisma.rows. split.
  - intros Hnil. by apply map_to_list_empty_iff, (fmap_nil_inv of_row).
  - intros ->. by rewrite map_to_list_empty.
Qed.

Lemma elem_of_rows (tbl : gmap Z R) (x : T) :
  x ∈ prisma.rows of_row tbl ↔ ∃ k r, tbl !! k = Some r ∧ x = of_row (k, r).
Proof.
  unfold prisma.rows. rewrite list_elem_of_fmap. split.
  - intros [[k r] [-> Hin]]. exists k, r.
    by rewrite <- elem_of_map_to_list.
  - intros (k & r & Hlook & ->). exists (k, r).
    by rewrite elem_of_map_to_list.
Qed.

Lemma rows_NoDup (tbl : gmap Z R) :
  Inj (=) (=) of_row → NoDup (prisma.rows of_row tbl).
Proof.
  intros Hinj. unfold prisma.rows.
  apply (NoDup_fmap_2 of_row), NoDup_map_to_list.
Qed.
End tables.

Lemma Hotel_of_row_inv (h : Hotel.t) k r :
  h = Hotel.of_row (k, r) ↔ Hotel.id h = k ∧ Hotel.row h = r.
Proof.
  destruct h, r; unfold Hotel.of_row, Hotel.row; simpl. split.
  - by intros [= -> -> -> -> ->].
  - by intros [-> [= -> -> -> ->]].
Qed.

Lemma Hotel_of_row_inj : Inj (=) (=) Hotel.of_row.
Proof.
  intros [k r] [k' r'] Heq. symmetry in Heq.
  apply Hotel_of_row_inv in Heq as [Hk Hr]. simpl in Hk.
  destruct r, r'; unfold Hotel.row in Hr; simpl in *. by simplify_eq.
Qed.

Lemma elem_of_all_hotels (s : Store) (h : Hotel.t) :
  h ∈ prisma.hotel.all s ↔ hotel s !! Hotel.id h = Some (Hotel.row h).
Proof.
  unfold prisma.hotel.all. rewrite elem_of_rows. split.
  - intros (k & r & Hlook & Heq). by apply Hotel_of_row_inv in Heq as [-> ->].
  - intros Hlook. exists (Hotel.id h), (Hotel.row h). split; [done|].
    by apply Hotel_of_row_inv.
Qed.

(** ** getHotels *)

(** C1.  When the enrollment lookup and the ticket lookup both answer,
    [getHotels] is rejected with the PaymentRequired error exactly when
    the ticket is not paid, or its type is remote, or its type does not
    include a hotel; a paid ticket of an on-site type that includes a
    hotel never meets that error. *)
Theorem getHotels_payment_required_iff userId w e t :
  enrollmentRepository.first_by_userId userId (db w) = Some e →
  ticketRepository.first_by_enrollmentId (Enrollment.id e) (db w) = Some t →
  (outcome (hotelService.getHotels userId) w = Rejected paymentRequiredError ↔
     Ticket.status t ≠ PAID
     ∨ TicketType.isRemote (Ticket.TicketType t) = true
     ∨ TicketType.includesHotel (Ticket.TicketType t) = false)
  ∧ (Ticket.status t = PAID →
     TicketType.isRemote (Ticket.TicketType t) = false →
     TicketType.includesHotel (Ticket.TicketType t) = true →
     outcome (hotelService.getHotels userId) w ≠ Rejected paymentRequiredError).
Proof.
  intros He Ht. rewrite (getHotels_outcome userId w e t He Ht).
  rewrite <- disqualified_spec. split.
  - destruct (disqualified t); split; congruence.
  - intros Hpaid Hremote Hhotel.
    by rewrite (eligible_not_disqualified t Hpaid Hremote Hhotel).
Qed.

Lemma getHotels_payment_required_iff_witness :
  (outcome (hotelService.getHotels 8) sample.world
     = Rejected paymentRequiredError ↔
   Ticket.status sample.ticket_of_8 ≠ PAID
   ∨ TicketType.isRemote (Ticket.TicketType sample.ticket_of_8) = true
   ∨ TicketType.includesHotel (Ticket.TicketType sample.ticket_of_8) = false)
  ∧ (Ticket.status sample.ticket_of_8 = PAID →
     TicketType.isRemote (Ticket.TicketType sample.ticket_of_8) = false →
     TicketType.includesHotel (Ticket.TicketType sample.ticket_of_8) = true →
     outcome (hotelService.getHotels 8) sample.world
       ≠ Rejected paymentRequiredError).
Proof.
  apply (getHotels_payment_required_iff 8 sample.world
           sample.enrollment_of_8 sample.ticket_of_8);
    vm_compute; reflexivity.
Defined.

(** C2, on the code.  With no hotel in the store, a user holding a paid,
    on-site, hotel-including ticket gets the empty collection back: the
    guard [!hotels] tests an array, which is truthy also when empty, so
    the NotFound branch is never taken and the controller answers 200. *)
Theorem getHotels_without_hotels_resolves_empty :
  prisma.hotel.all sample.store_without_hotels = []
  ∧ outcome (hotelService.getHotels 7) sample.world_without_hotels = Resolved []
  ∧ outcome (controller.getHotels
               {| userId := 7; params := {| hotelId := "1" |} |})
            sample.world_without_hotels
    = Resolved (status_send 200 []).
Proof. vm_compute. done. Qed.

(** C3.  [getHotels] is rejected with the NotFound error when the
    enrollment lookup has no answer, and then only the enrollment query
    was issued; when the enrollment is found and the ticket lookup has
    no answer it is rejected with the NotFound error as well, and only
    the two lookups were issued.  In both cases the hotels are not
    fetched, and the store and the rest of its content play no part. *)
Theorem getHotels_lookup_not_found userId w :
  (enrollmentRepository.first_by_userId userId (db w) = None →
   outcome (hotelService.getHotels userId) w = Rejected notFoundError
   ∧ issued (hotelService.getHotels userId) w = [EnrollmentFindFirst userId])
  ∧ (∀ e,
     enrollmentRepository.first_by_userId userId (db w) = Some e →
     ticketRepository.first_by_enrollmentId (Enrollment.id e) (db w) = None →
     outcome (hotelService.getHotels userId) w = Rejected notFoundError
     ∧ issued (hotelService.getHotels userId) w
       = [EnrollmentFindFirst userId; TicketFindFirst (Enrollment.id e)]).
Proof.
  split.
  - intros He. pose proof (getHotels_run userId w) as Hrun.
    rewrite He in Hrun. split.
    + unfold outcome. by rewrite Hrun.
    + by apply (issued_logged _ _ _ _ Hrun).
  - intros e He Ht. pose proof (getHotels_run userId w) as Hrun.
    rewrite He in Hrun. simpl in Hrun. rewrite Ht in Hrun. split.
    + unfold outcome. by rewrite Hrun.
    + by apply (issued_logged _ _ _ _ Hrun).
Qed.

Lemma getHotels_lookup_not_found_witness :
  (outcome (hotelService.getHotels 5) sample.world = Rejected notFoundError
   ∧ issued (hotelService.getHotels 5) sample.world = [EnrollmentFindFirst 5])
  ∧ (outcome (hotelService.getHotels 9) sample.world = Rejected notFoundError
     ∧ issued (hotelService.getHotels 9) sample.world
       = [EnrollmentFindFirst 9; TicketFindFirst 90]).
Proof.
  split.
  - apply (proj1 (getHotels_lookup_not_found 5 sample.world)).
    vm_compute; reflexivity.
  - apply (proj2 (getHotels_lookup_not_found 9 sample.world)
             sample.enrollment_of_9);
      vm_compute; reflexivity.
Defined.

(** C4.  For a user holding a paid, on-site, hotel-including ticket, and
    a store with at least one hotel, [getHotels] resolves to a non-empty
    collection that holds every hotel row of the store exactly once,
    with its key and its columns as stored, and nothing else. *)
Theorem getHotels_returns_all_hotels userId w e t :
  enrollmentRepository.first_by_userId userId (db w) = Some e →
  ticketRepository.first_by_enrollmentId (Enrollment.id e) (db w) = Some t →
  Ticket.status t = PAID →
  TicketType.isRemote (Ticket.TicketType t) = false →
  TicketType.includesHotel (Ticket.TicketType t) = true →
  hotel (db w) ≠ ∅ →
  ∃ hotels,
    outcome (hotelService.getHotels userId) w = Resolved hotels
    ∧ hotels ≠ []
    ∧ NoDup hotels
    ∧ length hotels = size (hotel (db w))
    ∧ ∀ h, h ∈ hotels ↔ hotel (db w) !! Hotel.id h = Some (Hotel.row h).
Proof.
  intros He Ht Hpaid Hremote Hhotel Hsome.
  exists (prisma.hotel.all (db w)).
  rewrite (getHotels_outcome userId w e t He Ht),
    (eligible_not_disqualified t Hpaid Hremote Hhotel).
  split; [done|]. unfold prisma.hotel.all at 1 2 3. split; [|split; [|split]].
  - by rewrite rows_empty_iff.
  - apply rows_NoDup, Hotel_of_row_inj.
  - apply rows_length.
  - apply elem_of_all_hotels.
Qed.

Lemma getHotels_returns_all_hotels_witness :
  ∃ hotels,
    outcome (hotelService.getHotels 7) sample.world = Resolved hotels
    ∧ hotels ≠ []
    ∧ NoDup hotels
    ∧ length hotels = size (hotel (db sample.world))
    ∧ ∀ h, h ∈ hotels ↔
           hotel (db sample.world) !! Hotel.id h = Some (Hotel.row h).
Proof.
  apply (getHotels_returns_all_hotels 7 sample.world
           sample.enrollment_of_7 sample.ticket_of_7);
    try (vm_compute; reflexivity).
  intros Hempty. apply (f_equal (λ m, m !! 1)) in Hempty.
  vm_compute in Hempty. discriminate Hempty.
Defined.

(** ** Selecting rows by key *)

Lemma filter_rows {R T} (of_row : Z * R → T)
    (P : T → Prop) `{!∀ x, Decision (P x)} (l : list (Z * R)) :
  filter P (of_row <$> l) = of_row <$> filter (λ kr, P (of_row kr)) l.
Proof.
  induction l as [|kr l IH]; [done|]. rewrite fmap_cons.
  destruct (decide (P (of_row kr))) as [Hyes|Hno].
  - rewrite !filter_cons_True by done. by rewrite fmap_cons, IH.
  - by rewrite !filter_cons_False.
Qed.

Section selection.
Context {R : Type}.

(** A key selects nothing from rows that do not hold it. *)
Lemma filter_key_absent (k : Z) (l : list (Z * R)) :
  k ∉ l.*1 → filter (λ kr : Z * R, kr.1 = k) l = [].
Proof.
  induction l as [|[k' r'] l IH]; [done|]. rewrite fmap_cons, not_elem_of_cons.
  simpl. intros [Hne Hnotin]. rewrite filter_cons_False by (simpl; congruence).
  by apply IH.
Qed.

(** A key selects its one row from rows with distinct keys. *)
Lemma filter_key_present (k : Z) (r : R) (l : list (Z * R)) :
  NoDup l.*1 → (k, r) ∈ l → filter (λ kr : Z * R, kr.1 = k) l = [(k, r)].
Proof.
  induction l as [|[k' r'] l IH]; [by intros _ ?%elem_of_nil|].
  rewrite fmap_cons, NoDup_cons, elem_of_cons. simpl.
  intros [Hnotin Hnodup] [[= <- <-]|Hin].
  - rewrite filter_cons_True by done. by rewrite filter_key_absent.
  - rewrite filter_cons_False; [by apply IH|]. simpl. intros ->.
    apply Hnotin, list_elem_of_fmap. by exists (k, r).
Qed.

Lemma filter_key_table (k : Z) (tbl : gmap Z R) :
  filter (λ kr : Z * R, kr.1 = k) (map_to_list tbl) =
  match tbl !! k with
  | Some r => [(k, r)]
  | None => []
  end.
Proof.
  destruct (tbl !! k) as [r|] eqn:Hlook.
  - apply filter_key_present; [apply NoDup_fst_map_to_list|].
    by apply elem_of_map_to_list.
  - apply filter_key_absent. rewrite list_elem_of_fmap.
    intros ([k' r'] & -> & Hin). apply elem_of_map_to_list in Hin.
    simpl in Hlook. congruence.
Qed.

(** Selecting on the listing of a table, or listing the selection. *)
Lemma filter_table_length (P : Z * R → Prop) `{!∀ kr, Decision (P kr)}
    (tbl : gmap Z R) :
  length (filter P (map_to_list tbl)) = size (filter P tbl).
Proof.
  rewrite <- length_map_to_list. apply Permutation_length, NoDup_Permutation.
  - apply NoDup_filter, NoDup_map_to_list.
  - apply NoDup_map_to_list.
  - intros [k r]. rewrite list_elem_of_filter, !elem_of_map_to_list,
      map_lookup_filter_Some. tauto.
Qed.
End selection.

Lemma hotel_where_id (k : Z) (s : Store) :
  filter (λ h, Hotel.id h = k) (prisma.hotel.all s) =
  match hotel s !! k with
  | Some r => [Hotel.of_row (k, r)]
  | None => []
  end.
Proof.
  unfold prisma.hotel.all, prisma.rows. rewrite filter_rows. simpl.
  rewrite filter_key_table. by destruct (hotel s !! k).
Qed.

Lemma hotelRooms_of_spec (k : Z) (s : Store) :
  hotelRooms_of k s =
  match hotel s !! k with
  | Some r =>
    [HotelWithRooms.make (Hotel.of_row (k, r))
       (prisma.hotel.Rooms s (Hotel.of_row (k, r)))]
  | None => []
  end.
Proof.
  unfold hotelRooms_of. rewrite hotel_where_id. by destruct (hotel s !! k).
Qed.

Lemma Rooms_length (s : Store) (h : Hotel.t) :
  length (prisma.hotel.Rooms s h) =
  size (filter (λ kr : Z * Room.Row.t, Room.Row.hotelId kr.2 = Hotel.id h)
               (room s)).
Proof.
  unfold prisma.hotel.Rooms, prisma.rows.
  rewrite filter_rows, length_fmap. simpl. apply filter_table_length.
Qed.

Lemma Rooms_hotelId (s : Store) (h : Hotel.t) :
  Forall (λ r, Room.hotelId r = Hotel.id h) (prisma.hotel.Rooms s h).
Proof.
  apply Forall_forall. intros r. unfold prisma.hotel.Rooms.
  rewrite list_elem_of_filter. tauto.
Qed.

Lemma getHotelRooms_outcome Number hotelId w :
  outcome (hotelService.getHotelRooms Number hotelId) w =
  match Number hotelId with
  | JsInt k =>
    match hotel (db w) !! k with
    | Some r =>
      Resolved [HotelWithRooms.make (Hotel.of_row (k, r))
                  (prisma.hotel.Rooms (db w) (Hotel.of_row (k, r)))]
    | None => Rejected notFoundError
    end
  | JsNaN | JsOther => Rejected prismaClientValidationError
  end.
Proof.
  unfold outcome. rewrite getHotelRooms_run. simpl.
  destruct (Number hotelId) as [|k|]; [done| |done].
  rewrite hotelRooms_of_spec. by destruct (hotel (db w) !! k).
Qed.

(** ** getHotelRooms *)

(** C5.  When the hotel id names a hotel of the store, [getHotelRooms]
    resolves to a collection of exactly one entry: that hotel, with its
    columns as stored, carrying as many nested rooms as the store has
    rooms of that hotel, each with the hotel's id as its [hotelId]. *)
Theorem getHotelRooms_found Number hotelId w k r :
  Number hotelId = JsInt k →
  hotel (db w) !! k = Some r →
  ∃ entry,
    outcome (hotelService.getHotelRooms Number hotelId) w = Resolved [entry]
    ∧ HotelWithRooms.id entry = k
    ∧ HotelWithRooms.name entry = Hotel.Row.name r
    ∧ HotelWithRooms.image entry = Hotel.Row.image r
    ∧ HotelWithRooms.createdAt entry = Hotel.Row.createdAt r
    ∧ HotelWithRooms.updatedAt entry = Hotel.Row.updatedAt r
    ∧ length (HotelWithRooms.Rooms entry)
      = size (filter (λ kr : Z * Room.Row.t, Room.Row.hotelId kr.2 = k)
                     (room (db w)))
    ∧ Forall (λ rm, Room.hotelId rm = k) (HotelWithRooms.Rooms entry).
Proof.
  intros Hnum Hlook.
  exists (HotelWithRooms.make (Hotel.of_row (k, r))
            (prisma.hotel.Rooms (db w) (Hotel.of_row (k, r)))).
  rewrite getHotelRooms_outcome, Hnum, Hlook. simpl.
  repeat split.
  - apply (Rooms_length (db w) (Hotel.of_row (k, r))).
  - apply (Rooms_hotelId (db w) (Hotel.of_row (k, r))).
Qed.

Lemma getHotelRooms_found_witness :
  ∃ entry,
    outcome (hotelService.getHotelRooms sample.Number "1") sample.world
      = Resolved [entry]
    ∧ HotelWithRooms.id entry = 1
    ∧ HotelWithRooms.name entry = Hotel.Row.name sample.beach_resort
    ∧ HotelWithRooms.image entry = Hotel.Row.image sample.beach_resort
    ∧ HotelWithRooms.createdAt entry = Hotel.Row.createdAt sample.beach_resort
    ∧ HotelWithRooms.updatedAt entry = Hotel.Row.updatedAt sample.beach_resort
    ∧ length (HotelWithRooms.Rooms entry)
      = size (filter (λ kr : Z * Room.Row.t, Room.Row.hotelId kr.2 = 1)
                     (room (db sample.world)))
    ∧ Forall (λ rm, Room.hotelId rm = 1) (HotelWithRooms.Rooms entry).
Proof.
  apply (getHotelRooms_found sample.Number "1" sample.world 1
           sample.beach_resort);
    vm_compute; reflexivity.
Defined.

(** C6, as the code has it.  When the hotel id coerces to an integer
    that is no key of the hotel table, [getHotelRooms] is rejected with
    the NotFound error and the controller answers 404.  When it coerces
    to [NaN], as every non-numeric input does, or to a number that is
    no integer, the client refuses the query: [getHotelRooms] is
    rejected with the client's validation error, not with the NotFound
    error, and the controller answers 400. *)
Theorem getHotelRooms_not_found Number req w :
  (∀ k,
     Number (hotelId (params req)) = JsInt k →
     hotel (db w) !! k = None →
     outcome (hotelService.getHotelRooms Number (hotelId (params req))) w
       = Rejected notFoundError
     ∧ outcome (controller.getHotelRooms Number req) w
       = Resolved (sendStatus 404))
  ∧ (Number (hotelId (params req)) = JsNaN
     ∨ Number (hotelId (params req)) = JsOther →
     outcome (hotelService.getHotelRooms Number (hotelId (params req))) w
       = Rejected prismaClientValidationError
     ∧ outcome (controller.getHotelRooms Number req) w
       = Resolved (sendStatus 400)).
Proof.
  unfold outcome, controller.getHotelRooms, try_catch.
  rewrite bind_run, getHotelRooms_run. split.
  - intros k -> Hlook. simpl. by rewrite hotelRooms_of_spec, Hlook.
  - by intros [-> | ->].
Qed.

Lemma getHotelRooms_not_found_witness :
  (outcome (hotelService.getHotelRooms sample.Number "999999") sample.world
     = Rejected notFoundError
   ∧ outcome (controller.getHotelRooms sample.Number
                {| userId := 7; params := {| hotelId := "999999" |} |})
             sample.world
     = Resolved (sendStatus 404))
  ∧ (outcome (hotelService.getHotelRooms sample.Number "abc") sample.world
       = Rejected prismaClientValidationError
     ∧ outcome (controller.getHotelRooms sample.Number
                  {| userId := 7; params := {| hotelId := "abc" |} |})
               sample.world
       = Resolved (sendStatus 400)).
Proof.
  split.
  - apply (proj1 (getHotelRooms_not_found sample.Number
                    {| userId := 7; params := {| hotelId := "999999" |} |}
                    sample.world) 999999);
      vm_compute; reflexivity.
  - apply (proj2 (getHotelRooms_not_found sample.Number
                    {| userId := 7; params := {| hotelId := "abc" |} |}
                    sample.world)).
    left. vm_compute; reflexivity.
Defined.

(** C6, as the specification words it, fails on a non-numeric input:
    "abc" coerces to [NaN], which is the id of no hotel of the store,
    and yet [getHotelRooms] is not rejected with the NotFound error. *)
Lemma getHotelRooms_not_a_number_is_not_NotFound :
  sample.Number "abc" = JsNaN
  ∧ (∀ k, sample.Number "abc" = JsInt k → hotel (db sample.world) !! k = None)
  ∧ outcome (hotelService.getHotelRooms sample.Number "abc") sample.world
    ≠ Rejected notFoundError.
Proof.
  split; [|split].
  - vm_compute; reflexivity.
  - intros k Hnum. vm_compute in Hnum. discriminate Hnum.
  - vm_compute. discriminate.
Qed.

(** ** The controllers *)

Lemma kind_of_name (e : JsError) :
  kind_of e =
  if bool_decide (name e = "NotFoundError") then NotFound
  else if bool_decide (name e = "PaymentRequiredError") then PaymentRequired
  else Unexpected.
Proof.
  unfold kind_of, notFoundError, paymentRequiredError. destruct e as [nm]. simpl.
  repeat (case_decide; simplify_eq); repeat (case_bool_decide; simplify_eq);
    done.
Qed.

Lemma getHotels_catch_by_kind error w :
  controller.getHotels_catch error w =
  (Resolved (sendStatus (status_of_kind (kind_of error))), w).
Proof.
  unfold controller.getHotels_catch. rewrite kind_of_name.
  by repeat case_bool_decide.
Qed.

Lemma getHotelRooms_catch_by_kind error w :
  kind_of error ≠ PaymentRequired →
  controller.getHotelRooms_catch error w =
  (Resolved (sendStatus (status_of_kind (kind_of error))), w).
Proof.
  unfold controller.getHotelRooms_catch. rewrite kind_of_name.
  by repeat case_bool_decide.
Qed.

(** The catch block of [getHotelRooms] has no branch for the
    PaymentRequired error; its service raises none. *)
Lemma getHotelRooms_catch_payment_required w :
  outcome (controller.getHotelRooms_catch paymentRequiredError) w =
  Resolved (sendStatus 400).
Proof. reflexivity. Qed.

Lemma getHotelRooms_resolved_or_not_found Number hotelId w :
  (∃ hotelRooms,
     outcome (hotelService.getHotelRooms Number hotelId) w = Resolved hotelRooms)
  ∨ outcome (hotelService.getHotelRooms Number hotelId) w
    = Rejected notFoundError
  ∨ outcome (hotelService.getHotelRooms Number hotelId) w
    = Rejected prismaClientValidationError.
Proof.
  rewrite getHotelRooms_outcome.
  destruct (Number hotelId) as [|k|]; [by right; right| |by right; right].
  destruct (hotel (db w) !! k); [left; eauto | by right; left].
Qed.

(** C7.  Each controller answers 200 with the service's result when the
    service resolves, and otherwise the status of the kind of the error
    the service raised: 404 for NotFound, 402 for PaymentRequired, 400
    for any other.  The catch block of [getHotels] maps every error that
    way; the one of [getHotelRooms] maps every error that is not a
    PaymentRequired error that way, and its service raises none. *)
Theorem controllers_translate_by_kind Number req w :
  outcome (controller.getHotels req) w
    = Resolved (boundary (outcome (hotelService.getHotels (userId req)) w))
  ∧ outcome (controller.getHotelRooms Number req) w
    = Resolved (boundary (outcome (hotelService.getHotelRooms Number
                                     (hotelId (params req))) w))
  ∧ (∀ error,
       outcome (controller.getHotels_catch error) w
       = Resolved (sendStatus (status_of_kind (kind_of error))))
  ∧ (∀ error,
       kind_of error ≠ PaymentRequired →
       outcome (controller.getHotelRooms_catch error) w
       = Resolved (sendStatus (status_of_kind (kind_of error)))).
Proof.
  split; [|split; [|split]].
  - unfold outcome, controller.getHotels, try_catch. rewrite bind_run.
    destruct (hotelService.getHotels (userId req) w) as [[hotels|error] w'];
      simpl; [done|]. by rewrite getHotels_catch_by_kind.
  - pose proof (getHotelRooms_resolved_or_not_found Number
                  (hotelId (params req)) w) as Hcases.
    unfold outcome in *. unfold controller.getHotelRooms, try_catch.
    rewrite bind_run.
    destruct (hotelService.getHotelRooms Number (hotelId (params req)) w)
      as [[hotelRooms|error] w']; simpl in *; [done|].
    by destruct Hcases as [[? [=]]|[[= ->]|[= ->]]].
  - intros error. unfold outcome. by rewrite getHotels_catch_by_kind.
  - intros error Hkind. unfold outcome.
    by rewrite getHotelRooms_catch_by_kind.
Qed.

Lemma controllers_translate_by_kind_witness :
  outcome (controller.getHotels_catch {| name := "TypeError" |}) sample.world
    = Resolved (sendStatus 400)
  ∧ outcome (controller.getHotelRooms_catch {| name := "TypeError" |})
            sample.world
    = Resolved (sendStatus 400)
  ∧ outcome (controller.getHotels
               {| userId := 8; params := {| hotelId := "1" |} |}) sample.world
    = Resolved (sendStatus 402)
  ∧ outcome (controller.getHotelRooms sample.Number
               {| userId := 8; params := {| hotelId := "7" |} |}) sample.world
    = Resolved (sendStatus 404).
Proof.
  pose proof (controllers_translate_by_kind sample.Number
                {| userId := 8; params := {| hotelId := "7" |} |} sample.world)
    as (Hhotels & Hrooms & Hcatch & Hcatch_rooms).
  split; [|split; [|split]].
  - apply (Hcatch {| name := "TypeError" |}).
  - apply (Hcatch_rooms {| name := "TypeError" |}). vm_compute. discriminate.
  - exact Hhotels.
  - exact Hrooms.
Defined.

(** ** The store across a request *)

Lemma getHotels_world_after userId w :
  ∃ qs, world_after (hotelService.getHotels userId) w = logged w qs.
Proof.
  unfold world_after. rewrite getHotels_run.
  destruct (enrollmentRepository.first_by_userId userId (db w)) as [e|];
    [|eauto]. simpl.
  destruct (ticketRepository.first_by_enrollmentId _ (db w)) as [t|]; [|eauto].
  destruct (disqualified t); eauto.
Qed.

Lemma getHotelRooms_world_after Number hotelId w :
  world_after (hotelService.getHotelRooms Number hotelId) w =
  logged w [HotelFindManyWhere (Number hotelId)].
Proof.
  unfold world_after. rewrite getHotelRooms_run. simpl.
  destruct (Number hotelId) as [|k|]; [done| |done].
  by destruct (hotelRooms_of _ _).
Qed.

Lemma controller_getHotels_world_after req w :
  world_after (controller.getHotels req) w =
  world_after (hotelService.getHotels (userId req)) w.
Proof.
  unfold world_after, controller.getHotels, try_catch. rewrite bind_run.
  destruct (hotelService.getHotels (userId req) w) as [[hotels|error] w'];
    [done|]. simpl. by rewrite getHotels_catch_by_kind.
Qed.

Lemma controller_getHotelRooms_world_after Number req w :
  world_after (controller.getHotelRooms Number req) w =
  world_after (hotelService.getHotelRooms Number (hotelId (params req))) w.
Proof.
  unfold world_after, controller.getHotelRooms, try_catch. rewrite bind_run.
  destruct (hotelService.getHotelRooms Number (hotelId (params req)) w)
    as [[hotelRooms|error] w']; [done|]. simpl.
  unfold controller.getHotelRooms_catch. by case_bool_decide.
Qed.

(** C8.  The store after a request is the store before it, whatever the
    input and whether the operation resolves or is rejected: for the two
    queries of the hotel repository, for [getHotels] and [getHotelRooms]
    of the service, and for the two controllers. *)
Theorem hotels_path_read_only Number id userId hotelId req w :
  db (world_after hotelRepository.findHotels w) = db w
  ∧ db (world_after (hotelRepository.findHotelRooms id) w) = db w
  ∧ db (world_after (hotelService.getHotels userId) w) = db w
  ∧ db (world_after (hotelService.getHotelRooms Number hotelId) w) = db w
  ∧ db (world_after (controller.getHotels req) w) = db w
  ∧ db (world_after (controller.getHotelRooms Number req) w) = db w.
Proof.
  split; [done|]. split; [by destruct id|]. repeat split.
  - destruct (getHotels_world_after userId w) as [qs ->]. apply logged_db.
  - by rewrite getHotelRooms_world_after.
  - rewrite controller_getHotels_world_after.
    edestruct getHotels_world_after as [qs ->]. apply logged_db.
  - by rewrite controller_getHotelRooms_world_after, getHotelRooms_world_after.
Qed.

(** ** What the outcome depends on *)

Lemma getHotels_same_store userId w1 w2 :
  db w1 = db w2 →
  outcome (hotelService.getHotels userId) w1
  = outcome (hotelService.getHotels userId) w2.
Proof.
  intros Hdb. unfold outcome. rewrite !getHotels_run, Hdb.
  destruct (enrollmentRepository.first_by_userId userId (db w2)) as [e|];
    [|done]. simpl.
  destruct (ticketRepository.first_by_enrollmentId _ (db w2)) as [t|]; [|done].
  by destruct (disqualified t).
Qed.

Lemma getHotelRooms_same_hotels Number hotelId w1 w2 :
  hotel (db w1) = hotel (db w2) →
  room (db w1) = room (db w2) →
  outcome (hotelService.getHotelRooms Number hotelId) w1
  = outcome (hotelService.getHotelRooms Number hotelId) w2.
Proof.
  intros Hhotel Hroom. rewrite !getHotelRooms_outcome, Hhotel.
  unfold prisma.hotel.Rooms. by rewrite Hroom.
Qed.

Lemma controller_getHotelRooms_outcome Number req w :
  outcome (controller.getHotelRooms Number req) w =
  Resolved
    match outcome (hotelService.getHotelRooms Number (hotelId (params req))) w
    with
    | Resolved hotelRooms => status_send 200 hotelRooms
    | Rejected error => sendStatus (status_of_kind (kind_of error))
    end.
Proof.
  pose proof (getHotelRooms_resolved_or_not_found Number
                (hotelId (params req)) w) as Hcases.
  unfold outcome in *. unfold controller.getHotelRooms, try_catch.
  rewrite bind_run.
  destruct (hotelService.getHotelRooms Number (hotelId (params req)) w)
    as [[hotelRooms|error] w']; simpl in *; [done|].
  by destruct Hcases as [[? [=]]|[[= ->]|[= ->]]].
Qed.

(** C9.  The outcome of [getHotelRooms] is a function of the hotel id
    and of the hotel and room tables: two stores with the same hotels
    and rooms give the same outcome, whatever their enrollments, tickets
    and ticket types, and so do two requests for the same hotel id by
    different users.  The outcome is never the PaymentRequired error and
    the controller never answers 402. *)
Theorem getHotelRooms_depends_on_hotels_only Number req1 req2 w1 w2 :
  hotelId (params req1) = hotelId (params req2) →
  hotel (db w1) = hotel (db w2) →
  room (db w1) = room (db w2) →
  outcome (hotelService.getHotelRooms Number (hotelId (params req1))) w1
    = outcome (hotelService.getHotelRooms Number (hotelId (params req2))) w2
  ∧ outcome (controller.getHotelRooms Number req1) w1
    = outcome (controller.getHotelRooms Number req2) w2
  ∧ outcome (hotelService.getHotelRooms Number (hotelId (params req1))) w1
    ≠ Rejected paymentRequiredError
  ∧ outcome (controller.getHotelRooms Number req1) w1
    ≠ Resolved (sendStatus 402).
Proof.
  intros Hid Hhotel Hroom. rewrite <- Hid.
  pose proof (getHotelRooms_same_hotels Number (hotelId (params req1))
                w1 w2 Hhotel Hroom) as Hsame.
  split; [done|]. split; [|split].
  - rewrite !controller_getHotelRooms_outcome, <- Hid. by rewrite Hsame.
  - by destruct (getHotelRooms_resolved_or_not_found Number
                   (hotelId (params req1)) w1) as [[? ->]|[->| ->]].
  - rewrite controller_getHotelRooms_outcome.
    by destruct (getHotelRooms_resolved_or_not_found Number
                   (hotelId (params req1)) w1) as [[? ->]|[->| ->]].
Qed.

Lemma getHotelRooms_depends_on_hotels_only_witness :
  outcome (hotelService.getHotelRooms sample.Number "1") sample.world
    = outcome (hotelService.getHotelRooms sample.Number "1")
        {| db := {| enrollment := ∅; ticket := ∅; ticketType := ∅;
                    hotel := sample.hotels; room := sample.rooms |};
           journal := [HotelFindMany] |}
  ∧ outcome (controller.getHotelRooms sample.Number
               {| userId := 8; params := {| hotelId := "1" |} |}) sample.world
    = outcome (controller.getHotelRooms sample.Number
                 {| userId := 5; params := {| hotelId := "1" |} |})
        {| db := {| enrollment := ∅; ticket := ∅; ticketType := ∅;
                    hotel := sample.hotels; room := sample.rooms |};
           journal := [HotelFindMany] |}
  ∧ outcome (hotelService.getHotelRooms sample.Number "1") sample.world
    ≠ Rejected paymentRequiredError
  ∧ outcome (controller.getHotelRooms sample.Number
               {| userId := 8; params := {| hotelId := "1" |} |}) sample.world
    ≠ Resolved (sendStatus 402).
Proof.
  apply (getHotelRooms_depends_on_hotels_only sample.Number
           {| userId := 8; params := {| hotelId := "1" |} |}
           {| userId := 5; params := {| hotelId := "1" |} |}
           sample.world
           {| db := {| enrollment := ∅; ticket := ∅; ticketType := ∅;
                       hotel := sample.hotels; room := sample.rooms |};
              journal := [HotelFindMany] |});
    reflexivity.
Defined.

(** C10.  The outcome of either operation is a function of its input
    and of the store: two runs with the same input in worlds holding the
    same store give the same outcome, whatever was queried before; in
    particular a second run straight after the first repeats its
    outcome. *)
Theorem hotelService_deterministic Number userId hotelId w1 w2 :
  db w1 = db w2 →
  outcome (hotelService.getHotels userId) w1
    = outcome (hotelService.getHotels userId) w2
  ∧ outcome (hotelService.getHotelRooms Number hotelId) w1
    = outcome (hotelService.getHotelRooms Number hotelId) w2
  ∧ outcome (hotelService.getHotels userId)
            (world_after (hotelService.getHotels userId) w1)
    = outcome (hotelService.getHotels userId) w1
  ∧ outcome (hotelService.getHotelRooms Number hotelId)
            (world_after (hotelService.getHotelRooms Number hotelId) w1)
    = outcome (hotelService.getHotelRooms Number hotelId) w1.
Proof.
  intros Hdb. split; [|split; [|split]].
  - by apply getHotels_same_store.
  - apply getHotelRooms_same_hotels; by rewrite Hdb.
  - apply getHotels_same_store.
    destruct (getHotels_world_after userId w1) as [qs ->]. apply logged_db.
  - apply getHotelRooms_same_hotels; by rewrite getHotelRooms_world_after.
Qed.

Lemma hotelService_deterministic_witness :
  outcome (hotelService.getHotels 7) sample.world
    = outcome (hotelService.getHotels 7)
        {| db := sample.store; journal := [HotelFindMany; TicketFindFirst 3] |}
  ∧ outcome (hotelService.getHotelRooms sample.Number "2") sample.world
    = outcome (hotelService.getHotelRooms sample.Number "2")
        {| db := sample.store; journal := [HotelFindMany; TicketFindFirst 3] |}
  ∧ outcome (hotelService.getHotels 7)
            (world_after (hotelService.getHotels 7) sample.world)
    = outcome (hotelService.getHotels 7) sample.world
  ∧ outcome (hotelService.getHotelRooms sample.Number "2")
            (world_after (hotelService.getHotelRooms sample.Number "2")
                         sample.world)
    = outcome (hotelService.getHotelRooms sample.Number "2") sample.world.
Proof.
  apply (hotelService_deterministic sample.Number 7 "2" sample.world
           {| db := sample.store;
              journal := [HotelFindMany; TicketFindFirst 3] |}).
  reflexivity.
Defined.

(** ** Further properties of getHotels *)

(** Every run of [getHotels] ends in one of four ways, each with its
    outcome and the queries it issued. *)
Lemma getHotels_cases userId w :
  (enrollmentRepository.first_by_userId userId (db w) = None
   ∧ hotelService.getHotels userId w
     = (Rejected notFoundError, logged w [EnrollmentFindFirst userId]))
  ∨ (∃ e,
       enrollmentRepository.first_by_userId userId (db w) = Some e
       ∧ ticketRepository.first_by_enrollmentId (Enrollment.id e) (db w) = None
       ∧ hotelService.getHotels userId w
         = (Rejected notFoundError,
            logged w [EnrollmentFindFirst userId;
                      TicketFindFirst (Enrollment.id e)]))
  ∨ (∃ e t,
       enrollmentRepository.first_by_userId userId (db w) = Some e
       ∧ ticketRepository.first_by_enrollmentId (Enrollment.id e) (db w)
         = Some t
       ∧ disqualified t = true
       ∧ hotelService.getHotels userId w
         = (Rejected paymentRequiredError,
            logged w [EnrollmentFindFirst userId;
                      TicketFindFirst (Enrollment.id e)]))
  ∨ (∃ e t,
       enrollmentRepository.first_by_userId userId (db w) = Some e
       ∧ ticketRepository.first_by_enrollmentId (Enrollment.id e) (db w)
         = Some t
       ∧ disqualified t = false
       ∧ hotelService.getHotels userId w
         = (Resolved (prisma.hotel.all (db w)),
            logged w [EnrollmentFindFirst userId;
                      TicketFindFirst (Enrollment.id e); HotelFindMany])).
Proof.
  rewrite getHotels_run.
  destruct (enrollmentRepository.first_by_userId userId (db w)) as [e|];
    [|by left]. simpl.
  destruct (ticketRepository.first_by_enrollmentId _ (db w)) as [t|] eqn:Ht;
    [|right; left; by exists e].
  destruct (disqualified t) eqn:Hd.
  - right; right; left. by exists e, t.
  - right; right; right. by exists e, t.
Qed.

(** X1.  [getHotels] is rejected with the NotFound error exactly when
    the enrollment lookup or the ticket lookup has no answer: the error
    never reports a store without hotels. *)
Theorem getHotels_not_found_iff userId w :
  outcome (hotelService.getHotels userId) w = Rejected notFoundError ↔
  enrollmentRepository.first_by_userId userId (db w) = None
  ∨ ∃ e, enrollmentRepository.first_by_userId userId (db w) = Some e
         ∧ ticketRepository.first_by_enrollmentId (Enrollment.id e) (db w)
           = None.
Proof.
  unfold outcome.
  destruct (getHotels_cases userId w)
    as [[He ->]|[(e & He & Ht & ->)|[(e & t & He & Ht & Hd & ->)
                                    |(e & t & He & Ht & Hd & ->)]]]; simpl.
  - split; [by left|done].
  - split; [|done]. intros _. right. by exists e.
  - split; [done|]. intros [Hnone|(e' & He' & Ht')]; [congruence|].
    rewrite He in He'. injection He' as <-. congruence.
  - split; [done|]. intros [Hnone|(e' & He' & Ht')]; [congruence|].
    rewrite He in He'. injection He' as <-. congruence.
Qed.

(** X2.  For a user holding a paid, on-site, hotel-including ticket
    [getHotels] resolves whatever the hotel table holds, and it resolves
    to the empty collection exactly when the store has no hotel. *)
Theorem getHotels_eligible_resolves userId w e t :
  enrollmentRepository.first_by_userId userId (db w) = Some e →
  ticketRepository.first_by_enrollmentId (Enrollment.id e) (db w) = Some t →
  Ticket.status t = PAID →
  TicketType.isRemote (Ticket.TicketType t) = false →
  TicketType.includesHotel (Ticket.TicketType t) = true →
  ∃ hotels,
    outcome (hotelService.getHotels userId) w = Resolved hotels
    ∧ length hotels = size (hotel (db w))
    ∧ (hotels = [] ↔ hotel (db w) = ∅).
Proof.
  intros He Ht Hpaid Hremote Hhotel. exists (prisma.hotel.all (db w)).
  rewrite (getHotels_outcome userId w e t He Ht),
    (eligible_not_disqualified t Hpaid Hremote Hhotel).
  split; [done|]. unfold prisma.hotel.all. split.
  - apply rows_length.
  - apply rows_empty_iff.
Qed.

Lemma getHotels_eligible_resolves_witness :
  ∃ hotels,
    outcome (hotelService.getHotels 7) sample.world_without_hotels
      = Resolved hotels
    ∧ length hotels = size (hotel (db sample.world_without_hotels))
    ∧ (hotels = [] ↔ hotel (db sample.world_without_hotels) = ∅).
Proof.
  apply (getHotels_eligible_resolves 7 sample.world_without_hotels
           sample.enrollment_of_7 sample.ticket_of_7);
    vm_compute; reflexivity.
Defined.

(** X3.  [getHotels] queries the hotels exactly when it resolves: a
    request that ends in NotFound or PaymentRequired never reads the
    hotel table.  Every run starts with the enrollment query of its user
    and issues at most three queries. *)
Theorem getHotels_fetches_hotels_iff_resolved userId w :
  (HotelFindMany ∈ issued (hotelService.getHotels userId) w ↔
   ∃ hotels, outcome (hotelService.getHotels userId) w = Resolved hotels)
  ∧ ∃ rest,
      issued (hotelService.getHotels userId) w
        = EnrollmentFindFirst userId :: rest
      ∧ (length rest ≤ 2)%nat.
Proof.
  unfold outcome.
  destruct (getHotels_cases userId w)
    as [[He Hrun]|[(e & He & Ht & Hrun)|[(e & t & He & Ht & Hd & Hrun)
                                        |(e & t & He & Ht & Hd & Hrun)]]];
    rewrite (issued_logged _ _ _ _ Hrun), Hrun; simpl.
  - split; [|exists []; split; [done|simpl; lia]].
    rewrite list_elem_of_singleton. split; [done|by intros [? [=]]].
  - split; [|eexists; split; [done|simpl; lia]].
    rewrite !elem_of_cons, elem_of_nil. split; [|by intros [? [=]]].
    intros [[=]|[[=]|[]]].
  - split; [|eexists; split; [done|simpl; lia]].
    rewrite !elem_of_cons, elem_of_nil. split; [|by intros [? [=]]].
    intros [[=]|[[=]|[]]].
  - split; [|eexists; split; [done|simpl; lia]].
    rewrite !elem_of_cons. split; [eauto|auto].
Qed.

(** X4.  The [getHotels] controller always answers, and with 200 and a
    body, 402 or 404: the errors its service raises are the two named
    ones, so the generic 400 of its catch block is not reached as long
    as the queries answer. *)
Theorem controller_getHotels_answers req w :
  ∃ res,
    outcome (controller.getHotels req) w = Resolved res
    ∧ ((∃ hotels, res = status_send 200 hotels)
       ∨ res = sendStatus 402
       ∨ res = sendStatus 404).
Proof.
  unfold outcome, controller.getHotels, try_catch. rewrite bind_run.
  destruct (getHotels_cases (userId req) w)
    as [[He ->]|[(e & He & Ht & ->)|[(e & t & He & Ht & Hd & ->)
                                    |(e & t & He & Ht & Hd & ->)]]]; simpl.
  - eexists. split; [reflexivity|]. by right; right.
  - eexists. split; [reflexivity|]. by right; right.
  - eexists. split; [reflexivity|]. by right; left.
  - eexists. split; [reflexivity|]. left. by eexists.
Qed.

(** ** Further properties of getHotelRooms *)

Lemma Room_of_row_inv (rm : Room.t) k r :
  rm = Room.of_row (k, r) ↔ Room.id rm = k ∧ room_columns rm = r.
Proof.
  destruct rm, r; unfold Room.of_row, room_columns; simpl. split.
  - by intros [= -> -> -> -> -> ->].
  - by intros [-> [= -> -> -> -> ->]].
Qed.

Lemma Room_of_row_inj : Inj (=) (=) Room.of_row.
Proof.
  intros [k r] [k' r'] Heq. symmetry in Heq.
  apply Room_of_row_inv in Heq as [Hk Hr]. simpl in Hk.
  destruct r, r'; unfold room_columns in Hr; simpl in *. by simplify_eq.
Qed.

Lemma elem_of_Rooms (s : Store) (h : Hotel.t) (rm : Room.t) :
  rm ∈ prisma.hotel.Rooms s h ↔
  room s !! Room.id rm = Some (room_columns rm)
  ∧ Room.hotelId rm = Hotel.id h.
Proof.
  unfold prisma.hotel.Rooms. rewrite list_elem_of_filter, elem_of_rows. split.
  - intros [Hid (k & r & Hlook & Heq)].
    by apply Room_of_row_inv in Heq as [-> ->].
  - intros [Hlook Hid]. split; [done|].
    exists (Room.id rm), (room_columns rm). split; [done|].
    by apply Room_of_row_inv.
Qed.

Lemma Rooms_NoDup (s : Store) (h : Hotel.t) : NoDup (prisma.hotel.Rooms s h).
Proof.
  unfold prisma.hotel.Rooms. apply NoDup_filter, rows_NoDup, Room_of_row_inj.
Qed.

(** X5.  When [getHotelRooms] resolves, its result is never empty: it is
    one entry, whose id is the integer the hotel id coerces to and is a
    key of the hotel table. *)
Theorem getHotelRooms_resolved_inv Number hotelId w hotelRooms :
  outcome (hotelService.getHotelRooms Number hotelId) w = Resolved hotelRooms →
  ∃ entry r,
    hotelRooms = [entry]
    ∧ Number hotelId = JsInt (HotelWithRooms.id entry)
    ∧ hotel (db w) !! HotelWithRooms.id entry = Some r.
Proof.
  rewrite getHotelRooms_outcome.
  destruct (Number hotelId) as [|k|]; [done| |done].
  destruct (hotel (db w) !! k) as [r|] eqn:Hlook; [|done].
  intros [= <-]. by eexists _, r.
Qed.

Lemma getHotelRooms_resolved_inv_witness :
  ∃ entry r,
    [HotelWithRooms.make (Hotel.of_row (3, vacant.lodge))
       (prisma.hotel.Rooms vacant.store (Hotel.of_row (3, vacant.lodge)))]
      = [entry]
    ∧ sample.Number "3" = JsInt (HotelWithRooms.id entry)
    ∧ hotel (db vacant.world) !! HotelWithRooms.id entry = Some r.
Proof.
  apply (getHotelRooms_resolved_inv sample.Number "3" vacant.world).
  vm_compute; reflexivity.
Defined.

(** X6.  The rooms nested in the entry of [getHotelRooms] are exactly
    the rooms of the store that belong to that hotel, each once and with
    its columns as stored; a room of another hotel is never among
    them. *)
Theorem getHotelRooms_rooms_exact Number hotelId w k r :
  Number hotelId = JsInt k →
  hotel (db w) !! k = Some r →
  ∃ entry,
    outcome (hotelService.getHotelRooms Number hotelId) w = Resolved [entry]
    ∧ NoDup (HotelWithRooms.Rooms entry)
    ∧ ∀ rm, rm ∈ HotelWithRooms.Rooms entry ↔
            room (db w) !! Room.id rm = Some (room_columns rm)
            ∧ Room.hotelId rm = k.
Proof.
  intros Hnum Hlook.
  exists (HotelWithRooms.make (Hotel.of_row (k, r))
            (prisma.hotel.Rooms (db w) (Hotel.of_row (k, r)))).
  rewrite getHotelRooms_outcome, Hnum, Hlook. simpl.
  split; [done|]. split.
  - apply Rooms_NoDup.
  - intros rm. apply (elem_of_Rooms (db w) (Hotel.of_row (k, r))).
Qed.

Lemma getHotelRooms_rooms_exact_witness :
  ∃ entry,
    outcome (hotelService.getHotelRooms sample.Number "1") sample.world
      = Resolved [entry]
    ∧ NoDup (HotelWithRooms.Rooms entry)
    ∧ ∀ rm, rm ∈ HotelWithRooms.Rooms entry ↔
            room (db sample.world) !! Room.id rm = Some (room_columns rm)
            ∧ Room.hotelId rm = 1.
Proof.
  apply (getHotelRooms_rooms_exact sample.Number "1" sample.world 1
           sample.beach_resort);
    vm_compute; reflexivity.
Defined.

(** X7.  A hotel that has no room is still found: [getHotelRooms]
    resolves to its entry with an empty list of rooms, not to the
    NotFound error. *)
Theorem getHotelRooms_hotel_without_rooms Number hotelId w k r :
  Number hotelId = JsInt k →
  hotel (db w) !! k = Some r →
  map_Forall (λ _ rr, Room.Row.hotelId rr ≠ k) (room (db w)) →
  outcome (hotelService.getHotelRooms Number hotelId) w
  = Resolved [HotelWithRooms.make (Hotel.of_row (k, r)) []].
Proof.
  intros Hnum Hlook Hnone. rewrite getHotelRooms_outcome, Hnum, Hlook.
  do 3 f_equal.
  destruct (prisma.hotel.Rooms (db w) (Hotel.of_row (k, r)))
    as [|rm rooms] eqn:Hrooms; [done|].
  assert (rm ∈ prisma.hotel.Rooms (db w) (Hotel.of_row (k, r))) as Hin
    by (rewrite Hrooms; apply list_elem_of_here).
  apply elem_of_Rooms in Hin as [Hrm Hid].
  by destruct (Hnone _ _ Hrm).
Qed.

Lemma getHotelRooms_hotel_without_rooms_witness :
  outcome (hotelService.getHotelRooms sample.Number "3") vacant.world
  = Resolved [HotelWithRooms.make (Hotel.of_row (3, vacant.lodge)) []].
Proof.
  apply (getHotelRooms_hotel_without_rooms sample.Number "3" vacant.world 3
           vacant.lodge).
  - vm_compute; reflexivity.
  - vm_compute; reflexivity.
  - apply map_Forall_to_list. vm_compute.
    repeat (constructor; [discriminate|]). constructor.
Defined.

(** ** The two operations together *)

Lemma getHotels_resolved_all userId w hotels :
  outcome (hotelService.getHotels userId) w = Resolved hotels →
  hotels = prisma.hotel.all (db w).
Proof.
  unfold outcome.
  destruct (getHotels_cases userId w)
    as [[He ->]|[(e & He & Ht & ->)|[(e & t & He & Ht & Hd & ->)
                                    |(e & t & He & Ht & Hd & ->)]]]; simpl;
    congruence.
Qed.

Lemma controller_getHotels_outcome req w :
  outcome (controller.getHotels req) w =
  Resolved
    match outcome (hotelService.getHotels (userId req)) w with
    | Resolved hotels => status_send 200 hotels
    | Rejected error => sendStatus (status_of_kind (kind_of error))
    end.
Proof.
  unfold outcome, controller.getHotels, try_catch. rewrite bind_run.
  destruct (hotelService.getHotels (userId req) w) as [[hotels|error] w'];
    simpl; [done|]. by rewrite getHotels_catch_by_kind.
Qed.

(** X8.  The list and the detail agree: every hotel that [getHotels]
    returned is found by a following [getHotelRooms] on a hotel id that
    coerces to its id, and the entry carries the same id, name, image
    and timestamps. *)
Theorem listed_hotel_is_found Number userId hotelId w hotels h :
  outcome (hotelService.getHotels userId) w = Resolved hotels →
  h ∈ hotels →
  Number hotelId = JsInt (Hotel.id h) →
  ∃ rooms,
    outcome (hotelService.getHotelRooms Number hotelId)
            (world_after (hotelService.getHotels userId) w)
    = Resolved [HotelWithRooms.make h rooms].
Proof.
  intros Hres Hin Hnum. apply getHotels_resolved_all in Hres as ->.
  apply elem_of_all_hotels in Hin.
  destruct (getHotels_world_after userId w) as [qs ->].
  rewrite getHotelRooms_outcome, Hnum, logged_db, Hin.
  assert (Hotel.of_row (Hotel.id h, Hotel.row h) = h) as ->
    by (symmetry; by apply Hotel_of_row_inv).
  by eexists.
Qed.

Lemma listed_hotel_is_found_witness :
  ∃ rooms,
    outcome (hotelService.getHotelRooms sample.Number "3")
            (world_after (hotelService.getHotels 7) vacant.world)
    = Resolved [HotelWithRooms.make (Hotel.of_row (3, vacant.lodge)) rooms].
Proof.
  apply (listed_hotel_is_found sample.Number 7 "3" vacant.world
           (prisma.hotel.all vacant.store) (Hotel.of_row (3, vacant.lodge))).
  - vm_compute; reflexivity.
  - apply elem_of_all_hotels. vm_compute; reflexivity.
  - vm_compute; reflexivity.
Defined.

(** X9.  [getHotels] does not read the rooms: two stores with the same
    enrollments, tickets, ticket types and hotels give the same outcome,
    whatever their rooms. *)
Theorem getHotels_ignores_rooms userId w1 w2 :
  enrollment (db w1) = enrollment (db w2) →
  ticket (db w1) = ticket (db w2) →
  ticketType (db w1) = ticketType (db w2) →
  hotel (db w1) = hotel (db w2) →
  outcome (hotelService.getHotels userId) w1
  = outcome (hotelService.getHotels userId) w2.
Proof.
  intros Henr Hticket Htype Hhotel. unfold outcome. rewrite !getHotels_run.
  assert (enrollmentRepository.first_by_userId userId (db w1)
          = enrollmentRepository.first_by_userId userId (db w2)) as ->
    by (unfold enrollmentRepository.first_by_userId; by rewrite Henr).
  destruct (enrollmentRepository.first_by_userId userId (db w2)) as [e|];
    [|done]. simpl.
  assert (ticketRepository.first_by_enrollmentId (Enrollment.id e) (db w1)
          = ticketRepository.first_by_enrollmentId (Enrollment.id e) (db w2))
    as ->.
  { unfold ticketRepository.first_by_enrollmentId. rewrite Hticket.
    destruct (head _) as [kr|]; [|done]. simpl.
    unfold ticketRepository.with_type. by rewrite Htype. }
  destruct (ticketRepository.first_by_enrollmentId _ (db w2)) as [t|]; [|done].
  unfold prisma.hotel.all. rewrite Hhotel. by destruct (disqualified t).
Qed.

Lemma getHotels_ignores_rooms_witness :
  outcome (hotelService.getHotels 7) sample.world
  = outcome (hotelService.getHotels 7)
      {| db := {| enrollment := sample.enrollments; ticket := sample.tickets;
                  ticketType := sample.ticketTypes; hotel := sample.hotels;
                  room := ∅ |};
         journal := [] |}.
Proof.
  apply (getHotels_ignores_rooms 7 sample.world
           {| db := {| enrollment := sample.enrollments;
                       ticket := sample.tickets;
                       ticketType := sample.ticketTypes;
                       hotel := sample.hotels; room := ∅ |};
              journal := [] |});
    reflexivity.
Defined.

(** X10.  The [getHotelRooms] controller always answers: with 200 and
    one entry when the hotel id coerces to a key of the hotel table,
    with 404 when it coerces to an integer that is no key, and with 400
    when it coerces to [NaN] or to a number that is no integer, which
    the client refuses.  It answers nothing else as long as the client
    answers the queries it accepts. *)
Theorem controller_getHotelRooms_answers Number req w :
  ∃ res,
    outcome (controller.getHotelRooms Number req) w = Resolved res
    ∧ ((∃ entry,
          res = status_send 200 [entry]
          ∧ Number (hotelId (params req)) = JsInt (HotelWithRooms.id entry)
          ∧ is_Some (hotel (db w) !! HotelWithRooms.id entry))
       ∨ (res = sendStatus 404
          ∧ ∃ k, Number (hotelId (params req)) = JsInt k
                 ∧ hotel (db w) !! k = None)
       ∨ (res = sendStatus 400
          ∧ (Number (hotelId (params req)) = JsNaN
             ∨ Number (hotelId (params req)) = JsOther))).
Proof.
  rewrite controller_getHotelRooms_outcome, getHotelRooms_outcome.
  eexists. split; [reflexivity|].
  destruct (Number (hotelId (params req))) as [|k|].
  - right; right. split; [done|by left].
  - destruct (hotel (db w) !! k) as [r|] eqn:Hlook.
    + left. eexists. split; [reflexivity|]. simpl. by rewrite Hlook.
    + right; left. split; [done|]. by exists k.
  - right; right. split; [done|by right].
Qed.

(** X11.  Requests do not disturb one another: a [getHotelRooms] request
    is answered the same before and after any [getHotels] request, and a
    [getHotels] request the same before and after any [getHotelRooms]
    request. *)
Theorem requests_do_not_interfere Number req1 req2 w :
  outcome (controller.getHotelRooms Number req2)
          (world_after (controller.getHotels req1) w)
    = outcome (controller.getHotelRooms Number req2) w
  ∧ outcome (controller.getHotels req1)
            (world_after (controller.getHotelRooms Number req2) w)
    = outcome (controller.getHotels req1) w.
Proof.
  split.
  - rewrite !controller_getHotelRooms_outcome, controller_getHotels_world_after.
    edestruct getHotels_world_after as [qs ->].
    by rewrite (getHotelRooms_same_hotels Number _ (logged w qs) w).
  - rewrite !controller_getHotels_outcome,
      controller_getHotelRooms_world_after, getHotelRooms_world_after.
    by rewrite (getHotels_same_store _ (logged w _) w).
Qed.

(** ** The lookups, read on the tables *)

Lemma head_filter_None {A} (P : A → Prop) `{!∀ x, Decision (P x)} (l : list A) :
  (∀ x, x ∈ l → ¬ P x) → head (filter P l) = None.
Proof.
  intros Hnone. destruct (filter P l) as [|x l'] eqn:Hfilter; [done|].
  assert (x ∈ filter P l) as Hin by (rewrite Hfilter; apply list_elem_of_here).
  apply list_elem_of_filter in Hin as [HP Hin]. by destruct (Hnone x Hin).
Qed.

Lemma first_by_userId_None (userId : Z) (s : Store) :
  map_Forall (λ _ r, Enrollment.Row.userId r ≠ userId) (enrollment s) →
  enrollmentRepository.first_by_userId userId s = None.
Proof.
  intros Hnone. unfold enrollmentRepository.first_by_userId.
  apply head_filter_None. intros e Hin Huser.
  apply elem_of_rows in Hin as (k & r & Hlook & ->).
  by destruct (Hnone k r Hlook).
Qed.

Lemma first_by_enrollmentId_None (enrollmentId : Z) (s : Store) :
  map_Forall (λ _ t, Ticket.Row.enrollmentId t ≠ enrollmentId) (ticket s) →
  ticketRepository.first_by_enrollmentId enrollmentId s = None.
Proof.
  intros Hnone. unfold ticketRepository.first_by_enrollmentId.
  rewrite head_filter_None; [done|]. intros [k t] Hin Hid.
  apply elem_of_map_to_list in Hin. by destruct (Hnone k t Hin).
Qed.

(** X12.  A user of whom the enrollment table holds no row is answered
    404 by the [getHotels] controller, whatever the tickets and the
    hotels of the store. *)
Theorem getHotels_without_enrollment_row req w :
  map_Forall (λ _ r, Enrollment.Row.userId r ≠ userId req)
             (enrollment (db w)) →
  outcome (controller.getHotels req) w = Resolved (sendStatus 404).
Proof.
  intros Hnone. apply first_by_userId_None in Hnone.
  rewrite controller_getHotels_outcome. unfold outcome.
  by rewrite getHotels_run, Hnone.
Qed.

Lemma getHotels_without_enrollment_row_witness :
  outcome (controller.getHotels {| userId := 5; params := {| hotelId := "1" |} |})
          sample.world
  = Resolved (sendStatus 404).
Proof.
  apply (getHotels_without_enrollment_row
           {| userId := 5; params := {| hotelId := "1" |} |} sample.world).
  apply map_Forall_to_list. vm_compute.
  repeat (constructor; [discriminate|]). constructor.
Defined.

(** X13.  A user whose enrollment no ticket row refers to is answered
    404 by the [getHotels] controller, whatever the hotels of the
    store. *)
Theorem getHotels_without_ticket_row req w e :
  enrollmentRepository.first_by_userId (userId req) (db w) = Some e →
  map_Forall (λ _ t, Ticket.Row.enrollmentId t ≠ Enrollment.id e)
             (ticket (db w)) →
  outcome (controller.getHotels req) w = Resolved (sendStatus 404).
Proof.
  intros He Hnone. apply first_by_enrollmentId_None in Hnone.
  rewrite controller_getHotels_outcome. unfold outcome.
  rewrite getHotels_run, He. simpl. by rewrite Hnone.
Qed.

Lemma getHotels_without_ticket_row_witness :
  outcome (controller.getHotels {| userId := 9; params := {| hotelId := "1" |} |})
          sample.world
  = Resolved (sendStatus 404).
Proof.
  apply (getHotels_without_ticket_row
           {| userId := 9; params := {| hotelId := "1" |} |} sample.world
           sample.enrollment_of_9).
  - vm_compute; reflexivity.
  - apply map_Forall_to_list. vm_compute.
    repeat (constructor; [discriminate|]). constructor.
Defined.
